(** * paperswithcode.http: the HttpClient request handler

    A shallow embedding of [HttpClient.request] (src/paperswithcode/http.py)
    and of the parts of the Python runtime and of httpx it observes:
    strings, dictionaries, response headers, exceptions and the
    try/except dispatch.  The state of the client object is threaded
    explicitly, and every call made on the httpx client is logged.

    Strings are Rocq strings whose characters stand for the code points
    below 256; numbers are integers. *)

From Stdlib Require Import ZArith String Ascii List Bool Lia.
From stdpp Require Import base option gmap strings.

Open Scope string_scope.
Open Scope Z_scope.

(** ** Python strings *)

Module PyStr.

(** [str.isspace] on the code points below 256. *)
Definition isspace (c : ascii) : bool :=
  let n := N_of_ascii c in
  ((9 <=? n) && (n <=? 13) || (28 <=? n) && (n <=? 32)
   || (n =? 133) || (n =? 160))%N.

(** [str.lower] on one code point below 256: A-Z and the upper case
    letters of Latin-1 move up by 32. *)
Definition lower_char (c : ascii) : ascii :=
  let n := N_of_ascii c in
  if ((65 <=? n) && (n <=? 90)
      || (192 <=? n) && (n <=? 222) && negb (n =? 215))%N
  then ascii_of_N (n + 32) else c.

Fixpoint lower (s : string) : string :=
  match s with
  | EmptyString => EmptyString
  | String c s' => String (lower_char c) (lower s')
  end.

Fixpoint lstrip (s : string) : string :=
  match s with
  | EmptyString => EmptyString
  | String c s' => if isspace c then lstrip s' else s
  end.

Definition rstrip (s : string) : string :=
  String.rev (lstrip (String.rev s)).

(** [s.strip()] with no argument. *)
Definition strip (s : string) : string := rstrip (lstrip s).

(** [sep.join(l)]. *)
Fixpoint join (sep : string) (l : list string) : string :=
  match l with
  | [] => ""
  | [x] => x
  | x :: l' => x ++ sep ++ join sep l'
  end.


End PyStr.

(** ** Python values *)

(** A decoded JSON document; an object is a [dict] with string keys. *)
#[local] Unset Elimination Schemes.
Inductive JSON : Type :=
| JNull
| JBool (b : bool)
| JNum (n : Z)
| JStr (s : string)
| JArr (items : list JSON)
| JObj (fields : gmap string JSON).
#[local] Set Elimination Schemes.

(** The operands of the one [==] of the handler: a header value, which
    httpx hands out as a [str], and the integer literal [0]. *)
Inductive pyval : Type :=
| PyStr (s : string)
| PyInt (n : Z).

(** [a == b]: a [str] and an [int] never compare equal. *)
Definition py_eq (a b : pyval) : bool :=
  match a, b with
  | PyStr s, PyStr t => bool_decide (s = t)
  | PyInt m, PyInt n => bool_decide (m = n)
  | _, _ => false
  end.

(** Exceptions raised by the runtime and the libraries below the
    handler, by class as far as the [except] clauses tell them apart.
    All of them are subclasses of [Exception]; KeyboardInterrupt and
    SystemExit, which no clause of the handler names, are left out. *)
Inductive LibExc : Type :=
| TimeoutException (detail : string)   (* httpx.TimeoutException and subclasses *)
| ConnectionError (detail : string)    (* the builtin ConnectionError and subclasses *)
| KeyError (key : string)
| TypeError (detail : string)
| AttributeError (detail : string)
| JSONDecodeError (detail : string)
| OtherException (detail : string).    (* any other subclass of Exception *)

(** A computation that returns or raises. *)
Inductive outcome (E A : Type) : Type :=
| Return (a : A)
| Raise (e : E).
Arguments Return {E A} a.
Arguments Raise {E A} e.

(** ** httpx.Headers *)

Module Headers.

(** The header lines of a response, in order; names compare without
    regard to case. *)
Definition t : Type := list (string * string).

Definition values (h : t) (key : string) : list string :=
  map snd (filter (fun kv => bool_decide (PyStr.lower (fst kv) = PyStr.lower key)) h).

(** [h[key]]: the values of the lines named [key], joined, or KeyError. *)
Definition getitem (h : t) (key : string) : outcome LibExc string :=
  match values h key with
  | [] => Raise (KeyError key)
  | vs => Return (PyStr.join ", " vs)
  end.

(** [h.get(key, None)]. *)
Definition get (h : t) (key : string) : option string :=
  match getitem h key with
  | Return v => Some v
  | Raise _ => None
  end.

End Headers.

(** ** httpx.Response, as the handler observes it *)

Record Response : Type := mkResponse {
  status_code : Z;
  resp_headers : Headers.t;
  text : string;                       (* the decoded body *)
  json : outcome LibExc JSON           (* what [.json()] does on this body *)
}.

(** [v[key]] for a decoded document [v] and a string [key]. *)
Definition subscript (v : JSON) (key : string) : outcome LibExc JSON :=
  match v with
  | JObj fields =>
      match fields !! key with
      | Some x => Return x
      | None => Raise (KeyError key)
      end
  | JArr _ => Raise (TypeError "list indices must be integers or slices, not str")
  | JStr _ => Raise (TypeError "string indices must be integers")
  | _ => Raise (TypeError "object is not subscriptable")
  end.

(** ** paperswithcode.errors *)

(** Modelled from the spec: the module paperswithcode.errors is not
    among the sources at hand.  Its three classes are ordinary
    exceptions (subclasses of [Exception], unrelated to
    httpx.TimeoutException and to the builtin ConnectionError); each
    value records the class, the arguments the handler constructs it
    with, and the cause given by [raise ... from]. *)
#[local] Unset Elimination Schemes.
Inductive Exc : Type :=
| Lib (e : LibExc)
| HttpClientError (message : JSON) (response : option Response)
                  (status : option Z) (cause : option Exc)
| HttpClientTimeout (cause : Exc)
| HttpRateLimitExceeded (response : Response)
                        (limit remaining reset retry : string).
#[local] Set Elimination Schemes.

Abbreviation result := (outcome Exc).

(** Sequencing of computations that may raise. *)
Definition bind {E A B} (k : A -> outcome E B) (m : outcome E A) : outcome E B :=
  match m with
  | Return a => k a
  | Raise e => Raise e
  end.

Definition lift {A} (m : outcome LibExc A) : result A :=
  match m with
  | Return a => Return a
  | Raise e => Raise (Lib e)
  end.

#[global] Instance outcome_bind {E} : MBind (outcome E) := @bind E.

(** ** The model class sent as a request body *)

Module Model.
(** A pydantic model, seen through [.dict()]. *)
Record t : Type := mk { dict : gmap string JSON }.
End Model.

(** ** AuthorizationMethod *)

Module AuthorizationMethod.
Inductive t : Type := basic | token | jwt.

Definition value (m : t) : string :=
  match m with
  | basic => "Basic"
  | token => "Token"
  | jwt => "JWT"
  end.
End AuthorizationMethod.

(** ** Calls on the httpx client *)

Inductive Verb : Type := GET | PATCH | POST | DELETE.

(** One call [client.<verb>(url=..., headers=..., ...)] on a client opened
    with [httpx.Client(base_url=..., headers=...)].  [data] is absent
    for the verbs that pass none. *)
Record Call : Type := mkCall {
  base_url : string;
  client_headers : gmap string string;
  verb : Verb;
  call_url : string;
  call_headers : gmap string string;
  call_params : option (gmap string string);
  call_data : option (gmap string JSON);
  call_timeout : Z
}.

(** ** HttpClient *)

Module HttpClient.

(** The attributes [__init__] sets on the object. *)
Record t : Type := mk {
  url : string;
  token : string;
  authorization_method : AuthorizationMethod.t;
  timeout : Z;
  headers : gmap string string;
  response : option Response
}.

Definition ERRORS : gmap Z string :=
  list_to_map
    [ (401, "Unauthorized");
      (403, "Forbidden!");
      (404, "Not found.");
      (409, "Conflict");
      (429, "Under pressure! (Too many requests)");
      (500, "You broke it!!!");
      (502, "Server not reachable.");
      (503, "Server under maintenance.") ].

(** [HttpClient(url, token, authorization_method, timeout)]. *)
Definition init (url token : string) (authorization_method : AuthorizationMethod.t)
    (timeout : Z) : t :=
  {| url := url;
     token := token;
     authorization_method := authorization_method;
     timeout := timeout;
     headers := {[ "Content-Type" := "application/json" ]};
     response := None |}.

(** The defaults of [__init__]: no token, JWT, ten seconds. *)
Definition init_default (url : string) : t :=
  init url "" AuthorizationMethod.jwt 10.

(** [self.response = r]. *)
Definition set_response (self : t) (r : Response) : t :=
  {| url := url self;
     token := token self;
     authorization_method := authorization_method self;
     timeout := timeout self;
     headers := headers self;
     response := Some r |}.

(** Line 86: [{**self.headers, **(headers or {})}]; the keys of the
    caller win. *)
Definition merge_headers (self : t) (hdrs : option (gmap string string))
    : gmap string string :=
  default ∅ hdrs ∪ headers self.

(** Lines 89-90: the Authorization entry is set on the merged dict when
    the token is not blank. *)
Definition set_authorization (self : t) (hdrs : gmap string string)
    : gmap string string :=
  if bool_decide (PyStr.strip (token self) ≠ "")
  then <[ "Authorization" :=
            AuthorizationMethod.value (authorization_method self) ++ " " ++ token self ]> hdrs
  else hdrs.

Definition effective_headers (self : t) (hdrs : option (gmap string string))
    : gmap string string :=
  set_authorization self (merge_headers self hdrs).

(** Line 92: [timeout or self.timeout]; [None] and zero are falsy. *)
Definition effective_timeout (self : t) (tmo : option Z) : Z :=
  match tmo with
  | Some n => if bool_decide (n = 0) then timeout self else n
  | None => timeout self
  end.

(** [{} if data is None else data.dict()]. *)
Definition body_of (data : option Model.t) : gmap string JSON :=
  match data with
  | None => ∅
  | Some d => Model.dict d
  end.

Section Request.

(** [repr(e)], as the classes of the exceptions define it. *)
Variable repr : Exc -> string.

(** The network and the server behind the httpx client: what a call
    returns or raises. *)
Variable transport : Call -> outcome LibExc Response.

(** One call on the client, logged. *)
Definition perform (c : Call) : result Response * list Call :=
  (lift (transport c), [c]).

(** Lines 95-129, the body of the [try]: the chain on [method.lower()]
    inside [with httpx.Client(base_url=self.url, headers=self.headers)].
    [hdrs] and [tmo] are the locals [headers] and [timeout].  Opening
    and closing the client makes no call and is taken not to raise. *)
Definition dispatch (self : t) (method url : string) (hdrs : gmap string string)
    (params : option (gmap string string)) (data : option Model.t) (tmo : Z)
    : result Response * list Call :=
  let call v d := mkCall (HttpClient.url self) (headers self) v url hdrs params d tmo in
  if bool_decide (PyStr.lower method = "get") then
    perform (call GET None)
  else if bool_decide (PyStr.lower method = "patch") then
    perform (call PATCH (Some (body_of data)))
  else if bool_decide (PyStr.lower method = "post") then
    perform (call POST (Some (body_of data)))
  else if bool_decide (PyStr.lower method = "delete") then
    perform (call DELETE None)
  else
    (Raise (HttpClientError (JStr ("Unsupported method: " ++ method)) None (Some 405) None),
     []).

(** Lines 130-139, the [except] clauses in order: what leaves the [try]
    statement when its body raises [e]. *)
Definition except_clauses (e : Exc) : Exc :=
  match e with
  | Lib (TimeoutException _) => HttpClientTimeout e
  | Lib (ConnectionError _) =>
      HttpClientError (JStr "Server not reachable.") None None (Some e)
  | _ => HttpClientError (JStr ("Unknown error. " ++ repr e)) None None (Some e)
  end.

(** Lines 151-164: the rate limit check on a response. *)
Definition check_rate_limit (r : Response) : result unit :=
  match Headers.get (resp_headers r) "X-Ratelimit-Limit" with
  | Some limit =>
      remaining ← lift (Headers.getitem (resp_headers r) "X-Ratelimit-Remaining");
      reset ← lift (Headers.getitem (resp_headers r) "X-Ratelimit-Reset");
      retry ← lift (Headers.getitem (resp_headers r) "X-Ratelimit-Retry");
      if py_eq (PyStr remaining) (PyInt 0)
      then Raise (HttpRateLimitExceeded r limit remaining reset retry)
      else Return ()
  | None => Return ()
  end.

(** Lines 172-175 and 179-182:
    [try: message = r.json()[field]  except Exception: message = fallback]. *)
Definition extract (r : Response) (field fallback : string) : JSON :=
  match v ← json r; subscript v field with
  | Return message => message
  | Raise _ => JStr fallback
  end.

(** Lines 141-148: a response with a status from 200 to 299. *)
Definition success (r : Response) : result JSON :=
  match (if bool_decide (text r ≠ "") then json r else Return (JObj ∅)) with
  | Return v => Return v
  | Raise e =>
      Raise (HttpClientError
               (JStr ("Error while parsing server response: " ++ repr (Lib e)))
               (Some r) None (Some (Lib e)))
  end.

(** Lines 141-183, on the response stored in [self.response]. *)
Definition classify (self : t) : result JSON :=
  match response self with
  | None => Raise (Lib (AttributeError "'NoneType' object has no attribute 'status_code'"))
  | Some r =>
      if bool_decide (200 ≤ status_code r ≤ 299) then success r
      else
        _ ← check_rate_limit r;
        match ERRORS !! status_code r with
        | Some message => Raise (HttpClientError (JStr message) (Some r) None None)
        | None =>
            if bool_decide (status_code r = 400)
            then Raise (HttpClientError (extract r "error" "Bad Request.") (Some r) None None)
            else Raise (HttpClientError (extract r "message" "Unknown error.") (Some r) None None)
        end
  end.

(** [self.request(method, url, headers, params, data, timeout)]: the
    value returned or the exception raised, the object afterwards, and
    the calls made on the httpx client. *)
Definition request (self : t) (method url : string)
    (hdrs params : option (gmap string string)) (data : option Model.t)
    (tmo : option Z) : result JSON * t * list Call :=
  let hdrs := effective_headers self hdrs in
  let tmo := effective_timeout self tmo in
  match dispatch self method url hdrs params data tmo with
  | (Return r, calls) =>
      let self := set_response self r in
      (classify self, self, calls)
  | (Raise e, calls) => (Raise (except_clauses e), self, calls)
  end.

(** The four forwarding methods. *)
Definition get (self : t) (url : string) (hdrs params : option (gmap string string))
    (tmo : option Z) :=
  request self "get" url hdrs params None tmo.

Definition patch (self : t) (url : string) (hdrs params : option (gmap string string))
    (data : option Model.t) (tmo : option Z) :=
  request self "patch" url hdrs params data tmo.

Definition post (self : t) (url : string) (hdrs params : option (gmap string string))
    (data : option Model.t) (tmo : option Z) :=
  request self "post" url hdrs params data tmo.

Definition delete (self : t) (url : string) (hdrs params : option (gmap string string))
    (tmo : option Z) :=
  request self "delete" url hdrs params None tmo.

End Request.

End HttpClient.

(** * Properties of the handler *)

(** ** Specification vocabulary *)

(** The methods the chain of [dispatch] serves, compared after
    [lower()]. *)
Definition supported (method : string) : Prop :=
  PyStr.lower method ∈ ["get"; "patch"; "post"; "delete"].

(** A status the handler takes for a success. *)
Definition is_2xx (r : Response) : Prop := 200 ≤ status_code r ≤ 299.

(** The field [f] of the body of [r], when the body decodes to an object
    that has it. *)
Definition body_field (r : Response) (f : string) : option JSON :=
  match json r with
  | Return (JObj fields) => fields !! f
  | _ => None
  end.

(** The names of the three headers read after X-Ratelimit-Limit. *)
Definition rate_limit_details : list string :=
  ["X-Ratelimit-Remaining"; "X-Ratelimit-Reset"; "X-Ratelimit-Retry"].

(** The known-status table as the specification words it. *)
Definition spec_table : gmap Z string :=
  list_to_map
    [ (401, "Unauthorized"); (403, "Forbidden"); (404, "Not found");
      (409, "Conflict"); (429, "Too many requests"); (500, "Internal error");
      (502, "Bad gateway"); (503, "Maintenance") ].

(** The object keeps the headers [__init__] gave it. *)
Definition default_headers (self : HttpClient.t) : Prop :=
  HttpClient.headers self = {[ "Content-Type" := "application/json" ]}.

(** The same object with another response left in it by an earlier
    call. *)
Definition with_response (self : HttpClient.t) (old : option Response) : HttpClient.t :=
  HttpClient.mk (HttpClient.url self) (HttpClient.token self)
    (HttpClient.authorization_method self) (HttpClient.timeout self)
    (HttpClient.headers self) old.

(** ** Strings *)

Section Strings.






Example strip_inner_space : PyStr.strip "  s3 cr3t " = "s3 cr3t".
Proof. reflexivity. Qed.

Example lower_method : PyStr.lower "DeLeTe" = "delete".
Proof. reflexivity. Qed.


End Strings.

(** ** The rate limit check *)

Section RateLimit.

(** A header value is a string, and no string equals the integer 0. *)
Lemma str_never_eq_int (s : string) (n : Z) : py_eq (PyStr s) (PyInt n) = false.
Proof. reflexivity. Qed.

Lemma get_Some h key v : Headers.get h key = Some v ↔ Headers.getitem h key = Return v.
Proof.
  unfold Headers.get. destruct (Headers.getitem h key); split; congruence.
Qed.

Lemma get_None h key : Headers.get h key = None ↔ Headers.getitem h key = Raise (KeyError key).
Proof.
  unfold Headers.get, Headers.getitem.
  destruct (Headers.values h key); split; congruence.
Qed.

(** The check returns when the limit header is absent or the three
    detail headers are all there; otherwise the KeyError of the first
    detail header that is missing escapes.  It has no third outcome. *)
Lemma check_rate_limit_cases r :
  (HttpClient.check_rate_limit r = Return ()
   ∧ (Headers.get (resp_headers r) "X-Ratelimit-Limit" = None
      ∨ ∀ key, key ∈ rate_limit_details → is_Some (Headers.get (resp_headers r) key)))
  ∨ (is_Some (Headers.get (resp_headers r) "X-Ratelimit-Limit")
     ∧ ∃ key, key ∈ rate_limit_details
         ∧ Headers.get (resp_headers r) key = None
         ∧ HttpClient.check_rate_limit r = Raise (Lib (KeyError key))).
Proof.
  unfold HttpClient.check_rate_limit, rate_limit_details.
  destruct (Headers.get (resp_headers r) "X-Ratelimit-Limit"); [|left; auto].
  destruct (Headers.get (resp_headers r) "X-Ratelimit-Remaining") as [v1|] eqn:E1.
  2:{ right. split; [done|]. exists "X-Ratelimit-Remaining".
      apply get_None in E1 as E1'. rewrite E1'. simpl. set_solver. }
  apply get_Some in E1 as E1'. rewrite E1'. simpl.
  destruct (Headers.get (resp_headers r) "X-Ratelimit-Reset") as [v2|] eqn:E2.
  2:{ right. split; [done|]. exists "X-Ratelimit-Reset".
      apply get_None in E2 as E2'. rewrite E2'. simpl. set_solver. }
  apply get_Some in E2 as E2'. rewrite E2'. simpl.
  destruct (Headers.get (resp_headers r) "X-Ratelimit-Retry") as [v3|] eqn:E3.
  2:{ right. split; [done|]. exists "X-Ratelimit-Retry".
      apply get_None in E3 as E3'. rewrite E3'. simpl. set_solver. }
  apply get_Some in E3 as E3'. rewrite E3'. simpl.
  left. split; [done|]. right. intros key Hkey.
  repeat (apply elem_of_cons in Hkey as [->|Hkey]; [by eexists|]).
  by apply elem_of_nil in Hkey.
Qed.

Lemma check_rate_limit_complete r :
  (∀ key, key ∈ rate_limit_details → is_Some (Headers.get (resp_headers r) key)) →
  HttpClient.check_rate_limit r = Return ().
Proof.
  intros Hall.
  destruct (check_rate_limit_cases r) as [[? _]|(_ & key & Hin & Hnone & _)]; [done|].
  destruct (Hall key Hin) as [v Hv]. congruence.
Qed.

Lemma check_rate_limit_missing r :
  is_Some (Headers.get (resp_headers r) "X-Ratelimit-Limit") →
  (∃ key, key ∈ rate_limit_details ∧ Headers.get (resp_headers r) key = None) →
  ∃ key, key ∈ rate_limit_details
    ∧ Headers.get (resp_headers r) key = None
    ∧ HttpClient.check_rate_limit r = Raise (Lib (KeyError key)).
Proof.
  intros [l Hl] (k & Hk & Hnone).
  destruct (check_rate_limit_cases r) as [[_ [?|Hall]]|[_ ?]]; [congruence| |done].
  destruct (Hall k Hk) as [v Hv]. congruence.
Qed.

End RateLimit.

(** ** One call of [request] *)

Section Handler.

Context (repr : Exc → string) (transport : Call → outcome LibExc Response).
Context (self : HttpClient.t) (method url : string).
Context (hdrs params : option (gmap string string)).
Context (data : option Model.t) (tmo : option Z).

(** The body of the [try] on the locals of this call, and the call. *)
Local Abbreviation attempt :=
  (HttpClient.dispatch transport self method url
     (HttpClient.effective_headers self hdrs) params data
     (HttpClient.effective_timeout self tmo)).
Local Abbreviation call :=
  (HttpClient.request repr transport self method url hdrs params data tmo).

Lemma request_on_response r :
  attempt.1 = Return r →
  call = (HttpClient.classify repr (HttpClient.set_response self r),
          HttpClient.set_response self r, attempt.2).
Proof.
  unfold HttpClient.request. destruct attempt as [[r'|e] calls]; simpl; congruence.
Qed.

Lemma request_on_raise e :
  attempt.1 = Raise e →
  call = (Raise (HttpClient.except_clauses repr e), self, attempt.2).
Proof.
  unfold HttpClient.request. destruct attempt as [[r'|e'] calls]; simpl; congruence.
Qed.

Lemma dispatch_unsupported :
  ¬ supported method →
  attempt =
    (Raise (HttpClientError (JStr ("Unsupported method: " ++ method)) None (Some 405) None),
     []).
Proof.
  unfold supported, HttpClient.dispatch. intros Hno.
  repeat (case_bool_decide;
          [exfalso; apply Hno;
           match goal with Hm : PyStr.lower method = _ |- _ => rewrite Hm end;
           set_solver|]).
  done.
Qed.

Lemma dispatch_supported :
  supported method →
  ∃ v d,
    attempt =
      HttpClient.perform transport
        (mkCall (HttpClient.url self) (HttpClient.headers self) v url
           (HttpClient.effective_headers self hdrs) params d
           (HttpClient.effective_timeout self tmo)).
Proof.
  unfold supported, HttpClient.dispatch. intros Hyes.
  repeat (case_bool_decide; [by eauto|]).
  repeat (apply elem_of_cons in Hyes as [?|Hyes]; [done|]).
  by apply elem_of_nil in Hyes.
Qed.

(** The failure paths of lines 150-183 on the response just stored. *)
Lemma classify_failure r :
  ¬ is_2xx r →
  HttpClient.classify repr (HttpClient.set_response self r) =
    (_ ← HttpClient.check_rate_limit r;
     match HttpClient.ERRORS !! status_code r with
     | Some message => Raise (HttpClientError (JStr message) (Some r) None None)
     | None =>
         if bool_decide (status_code r = 400)
         then Raise (HttpClientError (HttpClient.extract r "error" "Bad Request.")
                       (Some r) None None)
         else Raise (HttpClientError (HttpClient.extract r "message" "Unknown error.")
                       (Some r) None None)
     end).
Proof.
  unfold is_2xx, HttpClient.classify. simpl. intros H.
  by rewrite bool_decide_eq_false_2.
Qed.

Lemma classify_success r :
  is_2xx r →
  HttpClient.classify repr (HttpClient.set_response self r) = HttpClient.success repr r.
Proof.
  unfold is_2xx, HttpClient.classify. simpl. intros H.
  by rewrite bool_decide_eq_true_2.
Qed.

(** What the guarded extraction amounts to. *)
Lemma extract_body_field r field fallback :
  HttpClient.extract r field fallback = default (JStr fallback) (body_field r field).
Proof.
  unfold HttpClient.extract, body_field.
  destruct (json r) as [v|e]; simpl; [|done].
  destruct v as [| | | | |fields]; simpl; try done.
  by destruct (fields !! field).
Qed.

(** C4. A response with a status from 200 to 299 makes [request]
    return: the empty mapping when the body is empty, the decoded
    document when the body decodes; when a body that is not empty fails
    to decode, [request] raises the parse error (HttpClientError with the
    message "Error while parsing server response: ..." built from the
    decoder's exception) that carries the response. *)
Theorem success_outcome r :
  attempt.1 = Return r →
  is_2xx r →
  (text r = "" → call.1.1 = Return (JObj ∅))
  ∧ (∀ v, text r ≠ "" → json r = Return v → call.1.1 = Return v)
  ∧ (∀ e, text r ≠ "" → json r = Raise e →
       call.1.1 =
         Raise (HttpClientError
                  (JStr ("Error while parsing server response: " ++ repr (Lib e)))
                  (Some r) None (Some (Lib e)))).
Proof.
  intros Hr H2xx. rewrite (request_on_response r Hr). simpl.
  rewrite (classify_success r H2xx). unfold HttpClient.success.
  split; [|split].
  - intros Ht. rewrite bool_decide_eq_false_2; [done|]. by intros Hne.
  - intros v Ht ->. by rewrite bool_decide_eq_true_2.
  - intros e Ht ->. by rewrite bool_decide_eq_true_2.
Qed.

(** C3, as amended.  The table holds exactly eight entries, with the
    messages of the code, and a response outside 200-299 that passes the
    rate limit check with a status of the table makes [request] raise
    the known-status error: HttpClientError with the message of the
    table for that status and the response. *)
Theorem known_status_error :
  (∀ code msg,
     HttpClient.ERRORS !! code = Some msg ↔
     (code, msg) ∈
       [ (401, "Unauthorized"); (403, "Forbidden!"); (404, "Not found.");
         (409, "Conflict"); (429, "Under pressure! (Too many requests)");
         (500, "You broke it!!!"); (502, "Server not reachable.");
         (503, "Server under maintenance.") ])
  ∧ (∀ r msg,
       attempt.1 = Return r →
       ¬ is_2xx r →
       HttpClient.check_rate_limit r = Return () →
       HttpClient.ERRORS !! status_code r = Some msg →
       call.1.1 = Raise (HttpClientError (JStr msg) (Some r) None None)).
Proof.
  split.
  - intros code msg. unfold HttpClient.ERRORS. symmetry.
    apply elem_of_list_to_map. apply (bool_decide_unpack _). by vm_compute.
  - intros r msg Hr H2xx Hrl Hmsg. rewrite (request_on_response r Hr). simpl.
    rewrite (classify_failure r H2xx), Hrl. simpl. by rewrite Hmsg.
Qed.

(** C6. A response outside 200-299 that passes the rate limit check
    with a status the table does not know makes [request] raise
    HttpClientError with the response: for status 400 (the bad request
    error) with the "error" field of the body or else "Bad Request.",
    for any other status (the generic error) with the "message" field of
    the body or else "Unknown error.". *)
Theorem unmapped_status_error r :
  attempt.1 = Return r →
  ¬ is_2xx r →
  HttpClient.check_rate_limit r = Return () →
  HttpClient.ERRORS !! status_code r = None →
  (status_code r = 400 →
     call.1.1 =
       Raise (HttpClientError (default (JStr "Bad Request.") (body_field r "error"))
                (Some r) None None))
  ∧ (status_code r ≠ 400 →
     call.1.1 =
       Raise (HttpClientError (default (JStr "Unknown error.") (body_field r "message"))
                (Some r) None None)).
Proof.
  intros Hr H2xx Hrl Hnone. rewrite (request_on_response r Hr). simpl.
  rewrite (classify_failure r H2xx), Hrl. simpl. rewrite Hnone.
  rewrite !extract_body_field. split; intros Hs.
  - by rewrite bool_decide_eq_true_2.
  - by rewrite bool_decide_eq_false_2.
Qed.

(** C10. A response outside 200-299 that has the X-Ratelimit-Limit
    header but lacks one of the three detail headers makes [request]
    fail with the bare KeyError of a missing header, which is none of
    the errors of paperswithcode.errors; and the values read are compared
    as the strings they are: with all three detail headers present the
    check passes whatever they hold, no value being read as a number. *)
Theorem missing_rate_limit_header_escapes r :
  attempt.1 = Return r →
  ¬ is_2xx r →
  is_Some (Headers.get (resp_headers r) "X-Ratelimit-Limit") →
  (∃ key, key ∈ rate_limit_details ∧ Headers.get (resp_headers r) key = None) →
  (∃ key, key ∈ rate_limit_details
     ∧ Headers.get (resp_headers r) key = None
     ∧ call.1.1 = Raise (Lib (KeyError key)))
  ∧ (∀ r' : Response,
       (∀ key, key ∈ rate_limit_details → is_Some (Headers.get (resp_headers r') key)) →
       HttpClient.check_rate_limit r' = Return ())
  ∧ (∀ s : string, py_eq (PyStr s) (PyInt 0) = false).
Proof.
  intros Hr H2xx Hlimit Hmissing. split; [|split].
  - destruct (check_rate_limit_missing r Hlimit Hmissing) as (key & Hin & Hnone & Hrl).
    exists key. split; [done|]. split; [done|].
    rewrite (request_on_response r Hr). simpl.
    by rewrite (classify_failure r H2xx), Hrl.
  - apply check_rate_limit_complete.
  - intros s. apply str_never_eq_int.
Qed.

(** Whatever the response, [classify] raises no HttpRateLimitExceeded. *)
Lemma classify_never_rate_limit r r' limit remaining reset retry :
  HttpClient.classify repr (HttpClient.set_response self r)
  ≠ Raise (HttpRateLimitExceeded r' limit remaining reset retry).
Proof.
  destruct (decide (is_2xx r)) as [H2xx|H2xx].
  - rewrite (classify_success r H2xx). unfold HttpClient.success.
    by destruct (if bool_decide (text r ≠ "") then json r else Return (JObj ∅)).
  - rewrite (classify_failure r H2xx).
    destruct (check_rate_limit_cases r) as [[-> _]|(_ & key & _ & _ & ->)]; simpl; [|done].
    destruct (HttpClient.ERRORS !! status_code r); [done|].
    by case_bool_decide.
Qed.

Lemma request_never_rate_limit r' limit remaining reset retry :
  call.1.1 ≠ Raise (HttpRateLimitExceeded r' limit remaining reset retry).
Proof.
  destruct (attempt.1) as [r|e] eqn:E.
  - rewrite (request_on_response r E). simpl. apply classify_never_rate_limit.
  - rewrite (request_on_raise e E). simpl.
    destruct e as [[]| | |]; simpl; discriminate.
Qed.

(** The headers of [__init__] are there from the start and stay. *)
Lemma init_default_headers u tok am t0 : default_headers (HttpClient.init u tok am t0).
Proof. reflexivity. Qed.

Lemma request_keeps_headers : HttpClient.headers call.1.2 = HttpClient.headers self.
Proof.
  destruct (attempt.1) as [r|e] eqn:E.
  - by rewrite (request_on_response r E).
  - by rewrite (request_on_raise e E).
Qed.

Lemma request_keeps_default_headers : default_headers self → default_headers call.1.2.
Proof. unfold default_headers. by rewrite request_keeps_headers. Qed.

(** *** The calls made on the httpx client *)

Lemma request_calls : call.2 = attempt.2.
Proof.
  unfold HttpClient.request. by destruct attempt as [[r|e] calls].
Qed.

Lemma calls_unsupported : ¬ supported method → call.2 = [].
Proof. intros H. by rewrite request_calls, (dispatch_unsupported H). Qed.

Lemma calls_supported :
  supported method →
  ∃ c, call.2 = [c]
    ∧ call_headers c = HttpClient.effective_headers self hdrs
    ∧ call_timeout c = HttpClient.effective_timeout self tmo
    ∧ base_url c = HttpClient.url self
    ∧ client_headers c = HttpClient.headers self.
Proof.
  intros H. destruct (dispatch_supported H) as (v & d & Hd).
  rewrite request_calls, Hd. simpl. by eexists.
Qed.

Lemma calls_locals c :
  c ∈ call.2 →
  call_headers c = HttpClient.effective_headers self hdrs
  ∧ call_timeout c = HttpClient.effective_timeout self tmo.
Proof.
  destruct (decide (supported method)) as [H|H].
  - destruct (calls_supported H) as (c' & -> & Hh & Ht & _).
    intros ->%list_elem_of_singleton. done.
  - rewrite (calls_unsupported H). by intros ?%elem_of_nil.
Qed.

(** C2, what the code does.  A method outside get, patch, post and
    delete (after [lower()]) reaches no call on the httpx client, but
    the HttpClientError with status 405 raised for it is caught by the
    last [except] clause of the same [try]: what leaves [request] is the
    HttpClientError "Unknown error. ..." without a status, that has the
    405 error as its cause. *)
Theorem unsupported_method_is_wrapped :
  ¬ supported method →
  let unsupported :=
    HttpClientError (JStr ("Unsupported method: " ++ method)) None (Some 405) None in
  call =
    (Raise (HttpClientError (JStr ("Unknown error. " ++ repr unsupported))
              None None (Some unsupported)),
     self, []).
Proof.
  intros H unsupported.
  assert (attempt.1 = Raise unsupported) as Hraise by by rewrite (dispatch_unsupported H).
  rewrite (request_on_raise _ Hraise). by rewrite (dispatch_unsupported H).
Qed.


(** C7, as amended.  For a supported method and an object with the
    headers of [__init__], the one call made carries the headers of the
    caller merged over the default: Content-Type is there, with the
    default value unless the caller gave one, and every entry of the
    caller is kept, except that the Authorization entry is the one put
    in for the token when the token is not blank. *)
Theorem merged_headers :
  supported method →
  default_headers self →
  ∃ c, call.2 = [c]
    ∧ is_Some (call_headers c !! "Content-Type")
    ∧ (default ∅ hdrs !! "Content-Type" = None →
         call_headers c !! "Content-Type" = Some "application/json")
    ∧ (∀ k v, default ∅ hdrs !! k = Some v →
         k ≠ "Authorization" ∨ PyStr.strip (HttpClient.token self) = "" →
         call_headers c !! k = Some v)
    ∧ (∀ k, k ≠ "Authorization" ∨ PyStr.strip (HttpClient.token self) = "" →
         call_headers c !! k =
           (default ∅ hdrs ∪ {[ "Content-Type" := "application/json" ]}) !! k)
    ∧ (PyStr.strip (HttpClient.token self) ≠ "" →
         call_headers c !! "Authorization" =
           Some (AuthorizationMethod.value (HttpClient.authorization_method self)
                 ++ " " ++ HttpClient.token self)).
Proof.
  intros Hm Hd. destruct (calls_supported Hm) as (c & Hc & Hh & _).
  exists c. split; [done|]. rewrite Hh.
  assert (∀ k, k ≠ "Authorization" ∨ PyStr.strip (HttpClient.token self) = "" →
            HttpClient.effective_headers self hdrs !! k =
              (default ∅ hdrs ∪ {[ "Content-Type" := "application/json" ]}) !! k) as Hk.
  { intros k Hcase. unfold HttpClient.effective_headers, HttpClient.set_authorization,
      HttpClient.merge_headers. rewrite Hd.
    case_bool_decide as Ht; [|done].
    destruct Hcase as [Hne|Hblank]; [|done]. by rewrite lookup_insert_ne. }
  split; [|split; [|split; [|split]]]; [| | |done|].
  - rewrite Hk by (by left). rewrite lookup_union.
    rewrite lookup_singleton_eq. destruct (default ∅ hdrs !! "Content-Type"); by eexists.
  - intros Hnone. rewrite Hk by (by left). rewrite lookup_union, Hnone.
    by rewrite lookup_singleton_eq.
  - intros k v Hv Hcase. rewrite (Hk k Hcase). rewrite lookup_union, Hv.
    by destruct ({[ "Content-Type" := "application/json" ]} !! k).
  - intros Ht. unfold HttpClient.effective_headers, HttpClient.set_authorization.
    rewrite bool_decide_eq_true_2 by done. apply lookup_insert_eq.
Qed.

(** C9, as amended.  An omitted timeout and a zero one both give the
    timeout of the object; every other override, a negative one too,
    is the timeout of the call; for a supported method it is the
    timeout given to the one call [request] makes. *)
Theorem timeout_fallback :
  HttpClient.effective_timeout self None = HttpClient.timeout self
  ∧ HttpClient.effective_timeout self (Some 0) = HttpClient.timeout self
  ∧ (∀ n, n ≠ 0 → HttpClient.effective_timeout self (Some n) = n)
  ∧ (∀ c, c ∈ call.2 → call_timeout c = HttpClient.effective_timeout self tmo)
  ∧ (supported method →
     ∃ c, call.2 = [c] ∧ call_timeout c = HttpClient.effective_timeout self tmo).
Proof.
  split; [done|]. split; [done|]. split; [|split].
  - intros n Hn. unfold HttpClient.effective_timeout. by rewrite bool_decide_eq_false_2.
  - intros c Hc. by apply calls_locals in Hc as [_ ->].
  - intros Hm. destruct (calls_supported Hm) as (c & Hc & _ & Ht & _). by exists c.
Qed.

(** C8, as amended.  A call leaves url, token, authorization method,
    timeout and headers of the object as they were and either returns or
    raises, never both; it stores the response it received in the
    [response] attribute (and leaves the attribute alone when it received
    none); and what it returns, raises and sends does not depend on the
    response an earlier call left there. *)
Theorem request_frame :
  (HttpClient.url call.1.2 = HttpClient.url self
   ∧ HttpClient.token call.1.2 = HttpClient.token self
   ∧ HttpClient.authorization_method call.1.2 = HttpClient.authorization_method self
   ∧ HttpClient.timeout call.1.2 = HttpClient.timeout self
   ∧ HttpClient.headers call.1.2 = HttpClient.headers self)
  ∧ ((∃ v, call.1.1 = Return v) ∨ (∃ e, call.1.1 = Raise e))
  ∧ ¬ ((∃ v, call.1.1 = Return v) ∧ (∃ e, call.1.1 = Raise e))
  ∧ (∀ r, attempt.1 = Return r → HttpClient.response call.1.2 = Some r)
  ∧ (∀ e, attempt.1 = Raise e → HttpClient.response call.1.2 = HttpClient.response self)
  ∧ (∀ old,
       let call' :=
         HttpClient.request repr transport (with_response self old)
           method url hdrs params data tmo in
       call'.1.1 = call.1.1 ∧ call'.2 = call.2).
Proof.
  split; [|split; [|split; [|split; [|split]]]].
  - destruct (attempt.1) as [r|e] eqn:E.
    + by rewrite (request_on_response r E).
    + by rewrite (request_on_raise e E).
  - destruct (call.1.1); eauto.
  - intros [[v Hv] [e He]]. congruence.
  - intros r E. by rewrite (request_on_response r E).
  - intros e E. by rewrite (request_on_raise e E).
  - intros old. unfold HttpClient.request, with_response. simpl.
    change (HttpClient.effective_headers _ hdrs) with (HttpClient.effective_headers self hdrs).
    change (HttpClient.effective_timeout _ tmo) with (HttpClient.effective_timeout self tmo).
    change (HttpClient.dispatch transport _ method url)
      with (HttpClient.dispatch transport self method url).
    by destruct attempt as [[r|e] calls].
Qed.

End Handler.

(** ** Concrete calls *)

(** A [repr] for the calls below: the name of the class. *)
Definition show (e : Exc) : string :=
  match e with
  | Lib (TimeoutException _) => "TimeoutException"
  | Lib (ConnectionError _) => "ConnectionError"
  | Lib (KeyError _) => "KeyError"
  | Lib (TypeError _) => "TypeError"
  | Lib (AttributeError _) => "AttributeError"
  | Lib (JSONDecodeError _) => "JSONDecodeError"
  | Lib (OtherException _) => "Exception"
  | HttpClientError _ _ _ _ => "HttpClientError"
  | HttpClientTimeout _ => "HttpClientTimeout"
  | HttpRateLimitExceeded _ _ _ _ _ => "HttpRateLimitExceeded"
  end.

(** A server that answers every call with [r]. *)
Definition answering (r : Response) : Call → outcome LibExc Response :=
  λ _, Return r.

(** [HttpClient("https://paperswithcode.com/api/v1")], and the same with
    a token. *)
Definition anonymous : HttpClient.t :=
  HttpClient.init_default "https://paperswithcode.com/api/v1".

Definition with_token : HttpClient.t :=
  HttpClient.init "https://paperswithcode.com/api/v1" "s3cr3t" AuthorizationMethod.token 10.

Definition no_body : outcome LibExc JSON :=
  Raise (JSONDecodeError "Expecting value: line 1 column 1 (char 0)").

Definition deleted : Response := mkResponse 204 [] "" no_body.

Definition counted : Response :=
  mkResponse 200 [("Content-Type", "application/json")] "{'count': 0}"
    (Return (JObj {[ "count" := JNum 0 ]})).

Definition garbled : Response := mkResponse 200 [] "<html>" no_body.

Definition not_found : Response := mkResponse 404 [] "" no_body.

Definition broke : Response := mkResponse 500 [] "" no_body.

Definition bad_field : Response :=
  mkResponse 400 [] "{'error': 'bad field'}"
    (Return (JObj {[ "error" := JStr "bad field" ]})).

Definition bad_unreadable : Response := mkResponse 400 [] "<html>" no_body.

Definition teapot : Response :=
  mkResponse 418 [] "{'message': 'teapot'}"
    (Return (JObj {[ "message" := JStr "teapot" ]})).

(** 429 with the quota used up. *)
Definition exhausted : Response :=
  mkResponse 429
    [ ("X-Ratelimit-Limit", "60"); ("X-Ratelimit-Remaining", "0");
      ("X-Ratelimit-Reset", "1700000000"); ("X-Ratelimit-Retry", "30") ]
    "" no_body.

(** 429 with the limit header alone. *)
Definition limit_only : Response :=
  mkResponse 429 [ ("X-Ratelimit-Limit", "60") ] "" no_body.

(** C1, what the code does.  No call of [request] raises
    HttpRateLimitExceeded: the check compares the header value, a string,
    with the integer 0.  On the 429 response whose X-Ratelimit-Remaining
    is "0" the error raised is the one of the table for 429. *)
Theorem rate_limit_exceeded_never_raised :
  (∀ repr transport self method url hdrs params data tmo r limit remaining reset retry,
     (HttpClient.request repr transport self method url hdrs params data tmo).1.1
     ≠ Raise (HttpRateLimitExceeded r limit remaining reset retry))
  ∧ Headers.getitem (resp_headers exhausted) "X-Ratelimit-Remaining" = Return "0"
  ∧ (∀ repr,
       (HttpClient.request repr (answering exhausted) anonymous
          "get" "/papers/" None None None None).1.1
       = Raise (HttpClientError (JStr "Under pressure! (Too many requests)")
                  (Some exhausted) None None)).
Proof.
  split; [|split].
  - intros. apply request_never_rate_limit.
  - reflexivity.
  - intros repr. reflexivity.
Qed.

Lemma put_is_unsupported : ¬ supported "put".
Proof.
  unfold supported. simpl. intros H.
  repeat (apply elem_of_cons in H as [H|H]; [discriminate|]).
  by apply elem_of_nil in H.
Defined.

(** The call of C2 at "put". *)
Lemma unsupported_method_is_wrapped_witness :
  ¬ supported "put"
  ∧ HttpClient.request show (answering deleted) anonymous
      "put" "/papers/" None None None None
    = (Raise (HttpClientError (JStr "Unknown error. HttpClientError") None None
                (Some (HttpClientError (JStr "Unsupported method: put")
                         None (Some 405) None))),
       anonymous, []).
Proof.
  split; [exact put_is_unsupported|].
  exact (unsupported_method_is_wrapped show (answering deleted) anonymous
           "put" "/papers/" None None None None put_is_unsupported).
Defined.

Lemma get_is_supported : supported "get".
Proof. unfold supported. simpl. apply list_elem_of_here. Defined.

Lemma status_outside_2xx r : (status_code r <? 200) || (299 <? status_code r) = true → ¬ is_2xx r.
Proof. unfold is_2xx. intros H [? ?]. apply orb_true_iff in H as [H|H]; lia. Defined.

(** C4 on an empty 204, on a JSON body and on a body that does not
    decode. *)
Lemma success_outcome_witness :
  (is_2xx deleted
   ∧ (HttpClient.request show (answering deleted) anonymous
        "delete" "/papers/1/" None None None None).1.1 = Return (JObj ∅))
  ∧ (is_2xx counted
     ∧ (HttpClient.request show (answering counted) anonymous
          "get" "/papers/" None None None None).1.1
       = Return (JObj {[ "count" := JNum 0 ]}))
  ∧ (is_2xx garbled
     ∧ (HttpClient.request show (answering garbled) anonymous
          "get" "/papers/" None None None None).1.1
       = Raise (HttpClientError
                  (JStr "Error while parsing server response: JSONDecodeError")
                  (Some garbled) None
                  (Some (Lib (JSONDecodeError "Expecting value: line 1 column 1 (char 0)"))))).
Proof.
  assert (is_2xx deleted) as H1 by (unfold is_2xx; simpl; lia).
  assert (is_2xx counted) as H2 by (unfold is_2xx; simpl; lia).
  assert (is_2xx garbled) as H3 by (unfold is_2xx; simpl; lia).
  split; [|split]; (split; [assumption|]).
  - destruct (success_outcome show (answering deleted) anonymous
                "delete" "/papers/1/" None None None None deleted eq_refl H1) as (Hempty & _).
    exact (Hempty eq_refl).
  - destruct (success_outcome show (answering counted) anonymous
                "get" "/papers/" None None None None counted eq_refl H2) as (_ & Hjson & _).
    apply Hjson; [discriminate|reflexivity].
  - destruct (success_outcome show (answering garbled) anonymous
                "get" "/papers/" None None None None garbled eq_refl H3) as (_ & _ & Hbad).
    apply (Hbad (JSONDecodeError "Expecting value: line 1 column 1 (char 0)"));
      [discriminate|reflexivity].
Defined.

(** C3, as amended, on a 404 without rate limit headers. *)
Lemma known_status_error_witness :
  ¬ is_2xx not_found
  ∧ HttpClient.check_rate_limit not_found = Return ()
  ∧ HttpClient.ERRORS !! status_code not_found = Some "Not found."
  ∧ (HttpClient.request show (answering not_found) anonymous
       "get" "/papers/0/" None None None None).1.1
    = Raise (HttpClientError (JStr "Not found.") (Some not_found) None None).
Proof.
  assert (¬ is_2xx not_found) as H by (by apply status_outside_2xx).
  split; [exact H|]. split; [reflexivity|]. split; [reflexivity|].
  destruct (known_status_error show (answering not_found) anonymous
              "get" "/papers/0/" None None None None) as (_ & Hraise).
  exact (Hraise not_found "Not found." eq_refl H eq_refl eq_refl).
Defined.

(** C3 as the specification words it fails on a 500: the table of the
    code says "You broke it!!!" where the specification has Internal
    error. *)
Lemma known_status_message_differs :
  spec_table !! 500 = Some "Internal error"
  ∧ (HttpClient.request show (answering broke) anonymous
       "get" "/papers/" None None None None).1.1
    = Raise (HttpClientError (JStr "You broke it!!!") (Some broke) None None)
  ∧ ¬ (∀ repr transport self method url hdrs params data tmo r msg,
         (HttpClient.dispatch transport self method url
            (HttpClient.effective_headers self hdrs) params data
            (HttpClient.effective_timeout self tmo)).1 = Return r →
         ¬ is_2xx r →
         HttpClient.check_rate_limit r = Return () →
         spec_table !! status_code r = Some msg →
         (HttpClient.request repr transport self method url hdrs params data tmo).1.1
         = Raise (HttpClientError (JStr msg) (Some r) None None)).
Proof.
  split; [reflexivity|]. split; [reflexivity|].
  intros H.
  specialize (H show (answering broke) anonymous "get" "/papers/" None None None None
                broke "Internal error" eq_refl).
  assert (¬ is_2xx broke) as Hno by (by apply status_outside_2xx).
  specialize (H Hno eq_refl eq_refl).
  vm_compute in H. discriminate H.
Qed.

(** C6 on a 400 with an error field, a 400 that does not decode and a
    418 with a message field. *)
Lemma unmapped_status_error_witness :
  (¬ is_2xx bad_field
   ∧ HttpClient.check_rate_limit bad_field = Return ()
   ∧ HttpClient.ERRORS !! status_code bad_field = None
   ∧ (HttpClient.request show (answering bad_field) anonymous
        "post" "/papers/" None None None None).1.1
     = Raise (HttpClientError (JStr "bad field") (Some bad_field) None None))
  ∧ (HttpClient.request show (answering bad_unreadable) anonymous
       "post" "/papers/" None None None None).1.1
    = Raise (HttpClientError (JStr "Bad Request.") (Some bad_unreadable) None None)
  ∧ (HttpClient.request show (answering teapot) anonymous
       "get" "/papers/" None None None None).1.1
    = Raise (HttpClientError (JStr "teapot") (Some teapot) None None).
Proof.
  assert (¬ is_2xx bad_field) as H1 by (by apply status_outside_2xx).
  assert (¬ is_2xx bad_unreadable) as H2 by (by apply status_outside_2xx).
  assert (¬ is_2xx teapot) as H3 by (by apply status_outside_2xx).
  split; [|split].
  - split; [exact H1|]. split; [reflexivity|]. split; [reflexivity|].
    destruct (unmapped_status_error show (answering bad_field) anonymous
                "post" "/papers/" None None None None bad_field
                eq_refl H1 eq_refl eq_refl) as (H400 & _).
    exact (H400 eq_refl).
  - destruct (unmapped_status_error show (answering bad_unreadable) anonymous
                "post" "/papers/" None None None None bad_unreadable
                eq_refl H2 eq_refl eq_refl) as (H400 & _).
    exact (H400 eq_refl).
  - destruct (unmapped_status_error show (answering teapot) anonymous
                "get" "/papers/" None None None None teapot
                eq_refl H3 eq_refl eq_refl) as (_ & Hother).
    apply Hother. discriminate.
Defined.

(** C10 on a 429 that has the limit header and nothing more. *)
Lemma missing_rate_limit_header_escapes_witness :
  ¬ is_2xx limit_only
  ∧ is_Some (Headers.get (resp_headers limit_only) "X-Ratelimit-Limit")
  ∧ Headers.get (resp_headers limit_only) "X-Ratelimit-Remaining" = None
  ∧ ∃ key, key ∈ rate_limit_details
      ∧ (HttpClient.request show (answering limit_only) anonymous
           "get" "/papers/" None None None None).1.1 = Raise (Lib (KeyError key)).
Proof.
  assert (¬ is_2xx limit_only) as H by (by apply status_outside_2xx).
  assert (is_Some (Headers.get (resp_headers limit_only) "X-Ratelimit-Limit")) as Hl
    by (by eexists).
  assert (∃ key, key ∈ rate_limit_details
            ∧ Headers.get (resp_headers limit_only) key = None) as Hm.
  { exists "X-Ratelimit-Remaining". split; [apply list_elem_of_here|reflexivity]. }
  split; [exact H|]. split; [exact Hl|]. split; [reflexivity|].
  destruct (missing_rate_limit_header_escapes show (answering limit_only) anonymous
              "get" "/papers/" None None None None limit_only eq_refl H Hl Hm)
    as ((key & Hin & _ & Hraise) & _).
  exists key. split; [exact Hin|exact Hraise].
Defined.



(** C7, as amended, on a caller that overrides Content-Type and adds
    Accept. *)
Lemma merged_headers_witness :
  supported "get"
  ∧ default_headers with_token
  ∧ ∃ c,
      (HttpClient.request show (answering counted) with_token "get" "/papers/"
         (Some {[ "Content-Type" := "text/plain"; "Accept" := "*/*" ]})
         None None None).2 = [c]
      ∧ call_headers c !! "Content-Type" = Some "text/plain"
      ∧ call_headers c !! "Accept" = Some "*/*"
      ∧ call_headers c !! "Authorization" = Some "Token s3cr3t".
Proof.
  split; [exact get_is_supported|]. split; [reflexivity|].
  destruct (merged_headers show (answering counted) with_token "get" "/papers/"
              (Some {[ "Content-Type" := "text/plain"; "Accept" := "*/*" ]})
              None None None get_is_supported eq_refl)
    as (c & Hc & _ & _ & Hkept & _ & Hauth).
  exists c. split; [exact Hc|].
  split; [apply Hkept; [reflexivity|left; discriminate]|].
  split; [apply Hkept; [reflexivity|left; discriminate]|].
  apply Hauth. discriminate.
Defined.

(** C7 as stated fails on a caller that brings an Authorization of its
    own to a client with a token: the key is not among the defaults, and
    its value is replaced. *)
Lemma caller_authorization_replaced :
  (∃ c,
     (HttpClient.request show (answering counted) with_token "get" "/papers/"
        (Some {[ "Authorization" := "Bearer mine" ]}) None None None).2 = [c]
     ∧ call_headers c !! "Authorization" = Some "Token s3cr3t")
  ∧ ¬ (∀ repr transport self method url hdrs params data tmo c k v,
         supported method →
         default_headers self →
         c ∈ (HttpClient.request repr transport self method url hdrs params data tmo).2 →
         default ∅ hdrs !! k = Some v →
         HttpClient.headers self !! k = None →
         call_headers c !! k = Some v).
Proof.
  split.
  - eexists. split; reflexivity.
  - intros H.
    specialize (H show (answering counted) with_token "get" "/papers/"
                  (Some {[ "Authorization" := "Bearer mine" ]}) None None None
                  (mkCall "https://paperswithcode.com/api/v1"
                     {[ "Content-Type" := "application/json" ]} GET "/papers/"
                     (HttpClient.effective_headers with_token
                        (Some {[ "Authorization" := "Bearer mine" ]}))
                     None None 10)
                  "Authorization" "Bearer mine" get_is_supported eq_refl).
    assert (call_headers
              (mkCall "https://paperswithcode.com/api/v1"
                 {[ "Content-Type" := "application/json" ]} GET "/papers/"
                 (HttpClient.effective_headers with_token
                    (Some {[ "Authorization" := "Bearer mine" ]}))
                 None None 10) !! "Authorization" = Some "Bearer mine") as Habs.
    { apply H; [apply list_elem_of_here|reflexivity|reflexivity]. }
    vm_compute in Habs. discriminate Habs.
Qed.

(** C9, as amended, on overrides of zero and of five seconds. *)
Lemma timeout_fallback_witness :
  HttpClient.effective_timeout anonymous (Some 0) = 10
  ∧ HttpClient.effective_timeout anonymous (Some 5) = 5
  ∧ HttpClient.effective_timeout anonymous (Some (-1)) = -1
  ∧ ∃ c,
      (HttpClient.request show (answering counted) anonymous
         "get" "/papers/" None None None (Some 0)).2 = [c]
      ∧ call_timeout c = 10.
Proof.
  destruct (timeout_fallback show (answering counted) anonymous
              "get" "/papers/" None None None None) as (_ & Hzero & Hother & _).
  split; [exact Hzero|]. split; [apply Hother; discriminate|].
  split; [apply Hother; discriminate|].
  destruct (timeout_fallback show (answering counted) anonymous
              "get" "/papers/" None None None (Some 0)) as (_ & _ & _ & _ & Hcall).
  destruct (Hcall get_is_supported) as (c & Hc & Ht).
  exists c. split; [exact Hc|]. rewrite Ht. reflexivity.
Defined.

(** C9 as stated fails on a negative override: it is not strictly
    positive, and it replaces the default all the same. *)
Lemma negative_timeout_replaces_default :
  HttpClient.timeout anonymous = 10
  ∧ (∃ c,
       (HttpClient.request show (answering counted) anonymous "get" "/papers/"
          None None None (Some (-1))).2 = [c]
       ∧ call_timeout c = -1)
  ∧ ¬ (∀ self n, ¬ 0 < n →
         HttpClient.effective_timeout self (Some n) = HttpClient.timeout self).
Proof.
  split; [reflexivity|]. split.
  - eexists. split; reflexivity.
  - intros H. specialize (H anonymous (-1)).
    assert (¬ 0 < -1) as Hneg by lia. specialize (H Hneg). discriminate H.
Qed.

(** C8, as amended, on a call that receives a response, made on an
    object that holds an older one. *)
Lemma request_frame_witness :
  HttpClient.response
    (HttpClient.request show (answering counted) (with_response anonymous (Some broke))
       "get" "/papers/" None None None None).1.2 = Some counted
  ∧ (HttpClient.request show (answering counted) (with_response anonymous (Some broke))
       "get" "/papers/" None None None None).1.1
    = (HttpClient.request show (answering counted) anonymous
         "get" "/papers/" None None None None).1.1.
Proof.
  split.
  - destruct (request_frame show (answering counted) (with_response anonymous (Some broke))
                "get" "/papers/" None None None None) as (_ & _ & _ & Hstore & _).
    exact (Hstore counted eq_refl).
  - destruct (request_frame show (answering counted) anonymous
                "get" "/papers/" None None None None) as (_ & _ & _ & _ & _ & Hindep).
    exact (proj1 (Hindep (Some broke))).
Defined.

(** C8 as stated fails on the first call of a fresh object: the
    response received is kept in the [response] attribute. *)
Lemma response_is_stored :
  HttpClient.response anonymous = None
  ∧ HttpClient.response
      (HttpClient.request show (answering counted) anonymous
         "get" "/papers/" None None None None).1.2 = Some counted
  ∧ ¬ (∀ repr transport self method url hdrs params data tmo,
         HttpClient.response
           (HttpClient.request repr transport self method url hdrs params data tmo).1.2
         = HttpClient.response self).
Proof.
  split; [reflexivity|]. split; [reflexivity|].
  intros H.
  specialize (H show (answering counted) anonymous "get" "/papers/" None None None None).
  vm_compute in H. discriminate H.
Qed.

(** * Further properties of the handler *)

(** ** Vocabulary *)

(** The arguments of one call of [request]. *)
Record Args : Type := mkArgs {
  arg_method : string;
  arg_url : string;
  arg_headers : option (gmap string string);
  arg_params : option (gmap string string);
  arg_data : option Model.t;
  arg_timeout : option Z
}.

(** Two objects with the same url, token, authorization method, timeout
    and headers; the stored response may differ. *)
Definition same_config (a b : HttpClient.t) : Prop :=
  HttpClient.url a = HttpClient.url b
  ∧ HttpClient.token a = HttpClient.token b
  ∧ HttpClient.authorization_method a = HttpClient.authorization_method b
  ∧ HttpClient.timeout a = HttpClient.timeout b
  ∧ HttpClient.headers a = HttpClient.headers b.

(** A transport on which every call raises [e]. *)
Definition failing (e : LibExc) : Call → outcome LibExc Response :=
  λ _, Raise e.

Section Session.

Context (repr : Exc → string) (transport : Call → outcome LibExc Response).

Definition request_with (self : HttpClient.t) (a : Args)
    : result JSON * HttpClient.t * list Call :=
  HttpClient.request repr transport self (arg_method a) (arg_url a) (arg_headers a)
    (arg_params a) (arg_data a) (arg_timeout a).

(** Calls of [request] made one after the other on the same object: the
    outcomes in order, the object at the end, and all the calls made on
    the httpx client. *)
Fixpoint session (self : HttpClient.t) (calls : list Args)
    : list (result JSON) * HttpClient.t * list Call :=
  match calls with
  | [] => ([], self, [])
  | a :: rest =>
      let '(res, self1, sent) := request_with self a in
      let '(ress, self2, sents) := session self1 rest in
      (res :: ress, self2, (sent ++ sents)%list)
  end.

End Session.

(** ** Strings, continued *)

Lemma lower_char_idempotent c : PyStr.lower_char (PyStr.lower_char c) = PyStr.lower_char c.
Proof. by destruct c as [[] [] [] [] [] [] [] []]. Qed.

Lemma lower_idempotent s : PyStr.lower (PyStr.lower s) = PyStr.lower s.
Proof.
  induction s as [|c s IH]; simpl; [done|].
  by rewrite lower_char_idempotent, IH.
Qed.

Lemma supported_lower method : supported method → supported (PyStr.lower method).
Proof. unfold supported. by rewrite lower_idempotent. Qed.

(** ** One call of [request], continued *)

Section Further.

Context (repr : Exc → string) (transport : Call → outcome LibExc Response).
Context (self : HttpClient.t) (method url : string).
Context (hdrs params : option (gmap string string)).
Context (data : option Model.t) (tmo : option Z).

Local Abbreviation attempt :=
  (HttpClient.dispatch transport self method url
     (HttpClient.effective_headers self hdrs) params data
     (HttpClient.effective_timeout self tmo)).
Local Abbreviation call :=
  (HttpClient.request repr transport self method url hdrs params data tmo).

(** The call a verb [v] with body [d] makes for the locals of this
    call. *)
Local Abbreviation call_for v d :=
  (mkCall (HttpClient.url self) (HttpClient.headers self) v url
     (HttpClient.effective_headers self hdrs) params d
     (HttpClient.effective_timeout self tmo)).

Lemma dispatch_verb :
  (PyStr.lower method = "get" → attempt = HttpClient.perform transport (call_for GET None))
  ∧ (PyStr.lower method = "patch" →
       attempt = HttpClient.perform transport (call_for PATCH (Some (HttpClient.body_of data))))
  ∧ (PyStr.lower method = "post" →
       attempt = HttpClient.perform transport (call_for POST (Some (HttpClient.body_of data))))
  ∧ (PyStr.lower method = "delete" →
       attempt = HttpClient.perform transport (call_for DELETE None)).
Proof.
  unfold HttpClient.dispatch. repeat split; intros ->; reflexivity.
Qed.

Lemma raised_by_transport e :
  attempt.1 = Raise (Lib e) →
  ∃ c, attempt = (Raise (Lib e), [c]) ∧ transport c = Raise e.
Proof.
  destruct (decide (supported method)) as [H|H].
  - destruct (dispatch_supported transport self method url hdrs params data tmo H)
      as (v & d & ->).
    unfold HttpClient.perform. simpl. intros Hl. eexists. split; [by rewrite Hl|].
    destruct (transport _); simpl in Hl; congruence.
  - rewrite (dispatch_unsupported transport self method url hdrs params data tmo H).
    discriminate.
Qed.

Lemma received_from_transport r :
  attempt.1 = Return r →
  ∃ c, attempt = (Return r, [c]) ∧ transport c = Return r.
Proof.
  destruct (decide (supported method)) as [H|H].
  - destruct (dispatch_supported transport self method url hdrs params data tmo H)
      as (v & d & ->).
    unfold HttpClient.perform. simpl. intros Hl. eexists. split; [by rewrite Hl|].
    destruct (transport _); simpl in Hl; congruence.
  - rewrite (dispatch_unsupported transport self method url hdrs params data tmo H).
    discriminate.
Qed.

(** Everything [classify] can do on the response just stored. *)
Lemma classify_cases r :
  let outcome := HttpClient.classify repr (HttpClient.set_response self r) in
  (is_2xx r
   ∧ ((text r = "" ∧ outcome = Return (JObj ∅))
      ∨ (text r ≠ "" ∧ ∃ v, json r = Return v ∧ outcome = Return v)
      ∨ (text r ≠ "" ∧ ∃ e, json r = Raise e
           ∧ outcome =
               Raise (HttpClientError
                        (JStr ("Error while parsing server response: " ++ repr (Lib e)))
                        (Some r) None (Some (Lib e))))))
  ∨ (¬ is_2xx r
     ∧ ((∃ key, key ∈ rate_limit_details ∧ outcome = Raise (Lib (KeyError key)))
        ∨ (∃ m, outcome = Raise (HttpClientError m (Some r) None None)))).
Proof.
  intros outcome. subst outcome.
  destruct (decide (is_2xx r)) as [H2xx|H2xx]; [left|right]; (split; [done|]).
  - rewrite (classify_success repr self r H2xx). unfold HttpClient.success.
    case_bool_decide as Ht.
    + right. destruct (json r) as [v|e]; [left|right]; eauto.
    + left. split; [|done]. by destruct (decide (text r = "")).
  - rewrite (classify_failure repr self r H2xx).
    destruct (check_rate_limit_cases r) as [[-> _]|(_ & key & Hin & _ & ->)]; simpl.
    + right. destruct (HttpClient.ERRORS !! status_code r); [by eexists|].
      case_bool_decide; by eexists.
    + left. by exists key.
Qed.

(** X1.  A timeout of the transport is raised as HttpClientTimeout, with the
    transport's exception as cause; one call was made, and the object is
    as it was. *)
Theorem timeout_is_surfaced d :
  (HttpClient.dispatch transport self method url
     (HttpClient.effective_headers self hdrs) params data
     (HttpClient.effective_timeout self tmo)).1 = Raise (Lib (TimeoutException d)) →
  call.1.1 = Raise (HttpClientTimeout (Lib (TimeoutException d)))
  ∧ call.1.2 = self
  ∧ ∃ c, call.2 = [c] ∧ transport c = Raise (TimeoutException d).
Proof.
  intros H. rewrite (request_on_raise repr transport self method url hdrs params data tmo _ H).
  simpl. split; [done|]. split; [done|].
  destruct (raised_by_transport _ H) as (c & -> & Hc). by exists c.
Qed.

(** X2.  A builtin ConnectionError of the transport is raised as
    HttpClientError "Server not reachable." without a response, which
    tells it from the error of the table for 502, whose message is the
    same. *)
Theorem connection_error_is_unreachable d :
  attempt.1 = Raise (Lib (ConnectionError d)) →
  call.1.1 =
    Raise (HttpClientError (JStr "Server not reachable.") None None
             (Some (Lib (ConnectionError d))))
  ∧ HttpClient.ERRORS !! 502 = Some "Server not reachable."
  ∧ call.1.2 = self
  ∧ ∃ c, call.2 = [c] ∧ transport c = Raise (ConnectionError d).
Proof.
  intros H. rewrite (request_on_raise repr transport self method url hdrs params data tmo _ H).
  simpl. split; [done|]. split; [done|]. split; [done|].
  destruct (raised_by_transport _ H) as (c & -> & Hc). by exists c.
Qed.

(** X3.  Any other exception of the transport is raised as HttpClientError
    "Unknown error. " followed by its [repr], with the exception as
    cause and no response. *)
Theorem other_exception_is_wrapped e :
  (HttpClient.dispatch transport self method url
     (HttpClient.effective_headers self hdrs) params data
     (HttpClient.effective_timeout self tmo)).1 = Raise (Lib e) →
  (∀ d, e ≠ TimeoutException d) →
  (∀ d, e ≠ ConnectionError d) →
  call.1.1 =
    Raise (HttpClientError (JStr ("Unknown error. " ++ repr (Lib e))) None None
             (Some (Lib e)))
  ∧ call.1.2 = self.
Proof.
  intros H Ht Hc.
  rewrite (request_on_raise repr transport self method url hdrs params data tmo _ H).
  simpl. split; [|done]. destruct e; try done.
  - by destruct (Ht detail).
  - by destruct (Hc detail).
Qed.

(** X4.  HttpClientTimeout leaves [request] only when the transport raised a
    timeout: its cause is that exception. *)
Theorem timeout_only_from_transport cause :
  (HttpClient.request repr transport self method url hdrs params data tmo).1.1
  = Raise (HttpClientTimeout cause) →
  ∃ d c, cause = Lib (TimeoutException d)
    ∧ call.2 = [c]
    ∧ transport c = Raise (TimeoutException d).
Proof.
  destruct (attempt.1) as [r|e] eqn:E.
  - rewrite (request_on_response repr transport self method url hdrs params data tmo r E).
    simpl. intros Hc.
    destruct (classify_cases r)
      as [(_ & [[_ H]|[(_ & v & _ & H)|(_ & e & _ & H)]])
         |(_ & [(k & _ & H)|(m & H)])];
      simpl in H; congruence.
  - rewrite (request_on_raise repr transport self method url hdrs params data tmo e E).
    simpl. intros Hc.
    destruct e as [[]| | |]; simpl in Hc; try discriminate Hc.
    injection Hc as <-. destruct (raised_by_transport _ E) as (c & -> & Hc).
    by exists detail, c.
Qed.

(** X5.  [request] never retries: it makes one call on the httpx client when
    the method is supported and none otherwise; the call goes to the
    url of the object with the headers of the object as client headers,
    and passes on the path and the query parameters as given. *)
Theorem at_most_one_call :
  (length call.2 ≤ 1)%nat
  ∧ (call.2 = [] ↔ ¬ supported method)
  ∧ (∀ c, c ∈ call.2 →
       base_url c = HttpClient.url self
       ∧ client_headers c = HttpClient.headers self
       ∧ call_url c = url
       ∧ call_params c = params).
Proof.
  rewrite (request_calls repr transport self method url hdrs params data tmo).
  destruct (decide (supported method)) as [H|H].
  - destruct (dispatch_supported transport self method url hdrs params data tmo H)
      as (v & d & ->).
    simpl. split; [lia|]. split; [split; [discriminate|done]|].
    by intros c ->%list_elem_of_singleton.
  - rewrite (dispatch_unsupported transport self method url hdrs params data tmo H).
    simpl. split; [lia|]. split; [done|]. by intros c ?%elem_of_nil.
Qed.

(** X7.  With get and delete the [data] argument is dropped: the call is in
    every respect the one made without data. *)
Theorem data_ignored_without_body :
  PyStr.lower method ∈ ["get"; "delete"] →
  call = HttpClient.request repr transport self method url hdrs params None tmo.
Proof.
  intros H. unfold HttpClient.request, HttpClient.dispatch.
  apply elem_of_cons in H as [->|H]; [done|].
  apply elem_of_cons in H as [->|H]; [done|].
  by apply elem_of_nil in H.
Qed.

(** X8.  The method counts only through [lower()]: a supported method in any
    case gives the call of its lower-case spelling. *)
Theorem method_case_insensitive :
  supported method →
  call = HttpClient.request repr transport self (PyStr.lower method) url hdrs params data tmo.
Proof.
  intros H. unfold HttpClient.request, HttpClient.dispatch.
  rewrite lower_idempotent. unfold supported in H.
  repeat (case_bool_decide; [done|]).
  repeat (apply elem_of_cons in H as [?|H]; [done|]).
  by apply elem_of_nil in H.
Qed.

(** X9.  What [request] does with a response depends on the response alone:
    two calls that receive the same response, whatever their object,
    method, path, headers and timeout, end the same way. *)
Theorem outcome_depends_on_response_only
    transport' self' method' url' hdrs' params' data' tmo' r :
  attempt.1 = Return r →
  (HttpClient.dispatch transport' self' method' url'
     (HttpClient.effective_headers self' hdrs') params' data'
     (HttpClient.effective_timeout self' tmo')).1 = Return r →
  (HttpClient.request repr transport' self' method' url' hdrs' params' data' tmo').1.1
  = call.1.1.
Proof.
  intros H H'.
  rewrite (request_on_response repr transport self method url hdrs params data tmo r H).
  rewrite (request_on_response repr transport' self' method' url' hdrs' params' data' tmo' r H').
  reflexivity.
Qed.

(** X10.  A response outside 200-299 never makes [request] return: it raises
    either the KeyError of a missing rate limit header or an
    HttpClientError that carries this response and no cause. *)
Theorem failure_always_raises r :
  attempt.1 = Return r →
  ¬ is_2xx r →
  (∃ key, key ∈ rate_limit_details ∧ call.1.1 = Raise (Lib (KeyError key)))
  ∨ (∃ m, call.1.1 = Raise (HttpClientError m (Some r) None None)).
Proof.
  intros H H2xx.
  rewrite (request_on_response repr transport self method url hdrs params data tmo r H).
  simpl. by destruct (classify_cases r) as [[? _]|[_ ?]].
Qed.

(** X11.  [request] returns only on a response with a status from 200 to 299
    that the transport gave to the one call made: the empty mapping for
    an empty body, else what the body decodes to. *)
Theorem returns_only_from_2xx v :
  call.1.1 = Return v →
  ∃ r c, call.2 = [c]
    ∧ transport c = Return r
    ∧ is_2xx r
    ∧ HttpClient.response call.1.2 = Some r
    ∧ ((text r = "" ∧ v = JObj ∅) ∨ (text r ≠ "" ∧ json r = Return v)).
Proof.
  destruct (attempt.1) as [r|e] eqn:E.
  - rewrite (request_on_response repr transport self method url hdrs params data tmo r E).
    simpl. intros Hv. destruct (received_from_transport r E) as (c & -> & Hc).
    exists r, c. split; [done|]. split; [done|].
    destruct (classify_cases r)
      as [(H2xx & [[Ht H]|[(Ht & w & Hw & H)|(_ & e & _ & H)]])
         |(_ & [(k & _ & H)|(m & H)])];
      simpl in H; rewrite H in Hv; try discriminate Hv;
      injection Hv as <-; (split; [done|]); (split; [done|]); auto.
  - rewrite (request_on_raise repr transport self method url hdrs params data tmo e E).
    discriminate.
Qed.

(** X12.  No HttpClientError that leaves [request] was built with a
    [status_code] argument: the 405 of line 128 is only ever found in
    the cause of another error. *)
Theorem no_explicit_status m r s c :
  (HttpClient.request repr transport self method url hdrs params data tmo).1.1
  = Raise (HttpClientError m r s c) →
  s = None.
Proof.
  destruct (attempt.1) as [r0|e] eqn:E.
  - rewrite (request_on_response repr transport self method url hdrs params data tmo r0 E).
    simpl. intros Hc.
    destruct (classify_cases r0)
      as [(_ & [[_ H]|[(_ & v & _ & H)|(_ & e & _ & H)]])
         |(_ & [(k & _ & H)|(m' & H)])];
      simpl in H; congruence.
  - rewrite (request_on_raise repr transport self method url hdrs params data tmo e E).
    simpl. intros Hc. destruct e as [[]| | |]; simpl in Hc; congruence.
Qed.

End Further.

(** ** The forwarding methods *)

Section Wrappers.

Context (repr : Exc → string) (transport : Call → outcome LibExc Response).
Context (self : HttpClient.t) (url : string).
Context (hdrs params : option (gmap string string)).
Context (data : option Model.t) (tmo : option Z).

(** X6.  [get], [delete], [post] and [patch] each make exactly one call on
    the httpx client, with their own verb, the headers and the timeout
    [request] computes, and never end in the unsupported-method error;
    [get] and [delete] pass no body, [post] and [patch] pass the empty
    mapping when there is no data and [data.dict()] otherwise. *)
Theorem wrappers_make_their_call :
  let sent v d :=
    mkCall (HttpClient.url self) (HttpClient.headers self) v url
      (HttpClient.effective_headers self hdrs) params d
      (HttpClient.effective_timeout self tmo) in
  let body :=
    match data with
    | None => ∅
    | Some d => Model.dict d
    end in
  (HttpClient.get repr transport self url hdrs params tmo).2 = [sent GET None]
  ∧ (HttpClient.delete repr transport self url hdrs params tmo).2 = [sent DELETE None]
  ∧ (HttpClient.post repr transport self url hdrs params data tmo).2
    = [sent POST (Some body)]
  ∧ (HttpClient.patch repr transport self url hdrs params data tmo).2
    = [sent PATCH (Some body)].
Proof.
  intros sent body.
  unfold HttpClient.get, HttpClient.delete, HttpClient.post, HttpClient.patch.
  rewrite !request_calls.
  destruct (dispatch_verb transport self "get" url hdrs params None tmo) as (Hget & _).
  destruct (dispatch_verb transport self "delete" url hdrs params None tmo)
    as (_ & _ & _ & Hdelete).
  destruct (dispatch_verb transport self "post" url hdrs params data tmo)
    as (_ & _ & Hpost & _).
  destruct (dispatch_verb transport self "patch" url hdrs params data tmo)
    as (_ & Hpatch & _).
  by rewrite (Hget eq_refl), (Hdelete eq_refl), (Hpost eq_refl), (Hpatch eq_refl).
Qed.

End Wrappers.

(** ** The Authorization header *)

(** X13.  The Authorization value of two clients with tokens that are not
    blank is the same only when their authorization method and their
    token are: the header tells both. *)
Theorem authorization_determines_scheme_and_token
    (a b : HttpClient.t) (ha hb : option (gmap string string)) :
  PyStr.strip (HttpClient.token a) ≠ "" →
  PyStr.strip (HttpClient.token b) ≠ "" →
  HttpClient.effective_headers a ha !! "Authorization"
  = HttpClient.effective_headers b hb !! "Authorization" →
  HttpClient.authorization_method a = HttpClient.authorization_method b
  ∧ HttpClient.token a = HttpClient.token b.
Proof.
  intros Ha Hb. unfold HttpClient.effective_headers, HttpClient.set_authorization.
  rewrite !bool_decide_eq_true_2 by done. rewrite !lookup_insert_eq.
  intros [= H].
  destruct (HttpClient.authorization_method a), (HttpClient.authorization_method b);
    simpl in H; try discriminate H; by injection H.
Qed.

(** ** Calls in sequence *)

Section Sequences.

Context (repr : Exc → string) (transport : Call → outcome LibExc Response).

Lemma request_forgets_response self old a :
  (request_with repr transport (with_response self old) a).1.1
  = (request_with repr transport self a).1.1
  ∧ (request_with repr transport (with_response self old) a).2
    = (request_with repr transport self a).2.
Proof.
  unfold request_with, HttpClient.request, with_response. simpl.
  change (HttpClient.effective_headers _ (arg_headers a))
    with (HttpClient.effective_headers self (arg_headers a)).
  change (HttpClient.effective_timeout _ (arg_timeout a))
    with (HttpClient.effective_timeout self (arg_timeout a)).
  change (HttpClient.dispatch transport _ (arg_method a) (arg_url a))
    with (HttpClient.dispatch transport self (arg_method a) (arg_url a)).
  by destruct (HttpClient.dispatch _ _ _ _ _ _ _ _) as [[r|e] calls].
Qed.

Lemma same_config_with_response a b :
  same_config a b → b = with_response a (HttpClient.response b).
Proof.
  destruct a, b. unfold same_config, with_response. simpl.
  by intros (-> & -> & -> & -> & ->).
Qed.

Lemma request_keeps_config self a :
  same_config self (request_with repr transport self a).1.2.
Proof.
  unfold request_with, HttpClient.request, same_config.
  by destruct (HttpClient.dispatch _ _ _ _ _ _ _ _) as [[r|e] calls].
Qed.

Lemma request_with_one_call self a :
  (length (request_with repr transport self a).2 ≤ 1)%nat.
Proof.
  unfold request_with. rewrite request_calls.
  destruct (decide (supported (arg_method a))) as [H|H].
  - destruct (dispatch_supported transport self (arg_method a) (arg_url a) (arg_headers a)
                (arg_params a) (arg_data a) (arg_timeout a) H) as (v & d & ->).
    simpl. lia.
  - rewrite (dispatch_unsupported transport self (arg_method a) (arg_url a) (arg_headers a)
               (arg_params a) (arg_data a) (arg_timeout a) H).
    simpl. lia.
Qed.

Lemma same_config_trans a b c : same_config a b → same_config b c → same_config a c.
Proof.
  unfold same_config. intros (? & ? & ? & ? & ?) (? & ? & ? & ? & ?).
  repeat split; congruence.
Qed.

Lemma request_same_config a b x :
  same_config a b →
  (request_with repr transport b x).1.1 = (request_with repr transport a x).1.1
  ∧ (request_with repr transport b x).2 = (request_with repr transport a x).2.
Proof.
  intros Hc. rewrite (same_config_with_response a b Hc).
  apply request_forgets_response.
Qed.

Lemma session_from_same_config self self' l :
  same_config self self' →
  (session repr transport self' l).1.1
  = map (λ a, (request_with repr transport self a).1.1) l
  ∧ (session repr transport self' l).2
    = flat_map (λ a, (request_with repr transport self a).2) l
  ∧ same_config self (session repr transport self' l).1.2.
Proof.
  revert self'. induction l as [|a l IH]; intros self' Hc; simpl; [done|].
  pose proof (request_keeps_config self' a) as Hk.
  destruct (request_same_config self self' a Hc) as [Hres Hsent].
  destruct (request_with repr transport self' a) as [[res self1] sent].
  simpl in Hres, Hsent, Hk.
  destruct (IH self1 (same_config_trans _ _ _ Hc Hk)) as (IH1 & IH2 & IH3).
  destruct (session repr transport self1 l) as [[ress self2] sents].
  simpl in *. split; [by rewrite <- Hres, IH1|]. split; [by rewrite <- Hsent, IH2|done].
Qed.

(** X15.  Calls made one after the other on the same object do not influence
    each other through the object: each ends as it would on the object
    as constructed and sends what it would send there, and the object
    keeps its url, token, authorization method, timeout and headers
    throughout.  (The transport here answers a call by what the call
    is.) *)
Theorem session_calls_are_independent self l :
  (session repr transport self l).1.1
  = map (λ a, (request_with repr transport self a).1.1) l
  ∧ (session repr transport self l).2
    = flat_map (λ a, (request_with repr transport self a).2) l
  ∧ same_config self (session repr transport self l).1.2
  ∧ (length (session repr transport self l).2 ≤ length l)%nat.
Proof.
  assert (same_config self self) as Hrefl by done.
  destruct (session_from_same_config self self l Hrefl) as (H1 & H2 & H3).
  split; [done|]. split; [done|]. split; [done|].
  rewrite H2. clear. induction l as [|a l IH]; simpl; [lia|].
  rewrite length_app. pose proof (request_with_one_call self a). lia.
Qed.

End Sequences.

(** ** The branch taken, by status *)

Section ByStatus.

Context (repr : Exc → string) (transport : Call → outcome LibExc Response).
Context (self : HttpClient.t) (method url : string).
Context (hdrs params : option (gmap string string)).
Context (data : option Model.t) (tmo : option Z).

Local Abbreviation attempt :=
  (HttpClient.dispatch transport self method url
     (HttpClient.effective_headers self hdrs) params data
     (HttpClient.effective_timeout self tmo)).
Local Abbreviation call :=
  (HttpClient.request repr transport self method url hdrs params data tmo).

Lemma table_statuses code msg :
  HttpClient.ERRORS !! code = Some msg →
  code ∈ [401; 403; 404; 409; 429; 500; 502; 503].
Proof.
  unfold HttpClient.ERRORS. intros H.
  apply elem_of_list_to_map_2 in H.
  repeat (apply elem_of_cons in H as [[= -> _]|H]; [set_solver|]).
  by apply elem_of_nil in H.
Qed.

Lemma statuses_in_table code :
  code ∈ [401; 403; 404; 409; 429; 500; 502; 503] →
  is_Some (HttpClient.ERRORS !! code).
Proof.
  intros H.
  repeat (apply elem_of_cons in H as [->|H]; [by eexists|]).
  by apply elem_of_nil in H.
Qed.

(** X14.  Once the rate limit check has passed, the status alone picks the
    branch: the eight statuses of the table are never taken for a
    success and get the message of the table whatever the body says;
    400 is not in the table and always gets the "error" field or "Bad
    Request."; every other status outside 200-299 gets the "message"
    field or "Unknown error.". *)
Theorem classification_by_status r :
  attempt.1 = Return r →
  HttpClient.check_rate_limit r = Return () →
  (status_code r ∈ [401; 403; 404; 409; 429; 500; 502; 503] →
     ∃ msg, HttpClient.ERRORS !! status_code r = Some msg
       ∧ call.1.1 = Raise (HttpClientError (JStr msg) (Some r) None None))
  ∧ (status_code r = 400 →
       call.1.1 =
         Raise (HttpClientError (default (JStr "Bad Request.") (body_field r "error"))
                  (Some r) None None))
  ∧ (¬ is_2xx r →
     status_code r ∉ [400; 401; 403; 404; 409; 429; 500; 502; 503] →
       call.1.1 =
         Raise (HttpClientError (default (JStr "Unknown error.") (body_field r "message"))
                  (Some r) None None)).
Proof.
  intros Hr Hrl.
  rewrite (request_on_response repr transport self method url hdrs params data tmo r Hr).
  simpl. split; [|split].
  - intros Hin. destruct (statuses_in_table _ Hin) as [msg Hmsg]. exists msg.
    split; [done|].
    assert (¬ is_2xx r) as H2xx.
    { unfold is_2xx. intros [? ?].
      repeat (apply elem_of_cons in Hin as [Hin|Hin]; [lia|]).
      by apply elem_of_nil in Hin. }
    rewrite (classify_failure repr self r H2xx), Hrl. simpl. by rewrite Hmsg.
  - intros H400.
    assert (¬ is_2xx r) as H2xx by (unfold is_2xx; lia).
    rewrite (classify_failure repr self r H2xx), Hrl. simpl.
    rewrite H400. simpl. by rewrite extract_body_field.
  - intros H2xx Hout.
    rewrite (classify_failure repr self r H2xx), Hrl. simpl.
    destruct (HttpClient.ERRORS !! status_code r) as [msg|] eqn:E.
    { apply table_statuses in E. exfalso. apply Hout. by apply list_elem_of_further. }
    rewrite bool_decide_eq_false_2.
    + by rewrite extract_body_field.
    + intros H400. apply Hout. rewrite H400. apply list_elem_of_here.
Qed.

End ByStatus.

(** ** Concrete calls, continued *)

Definition timed_out : LibExc := TimeoutException "timed out".
Definition refused : LibExc := ConnectionError "Connection refused".
Definition protocol_error : LibExc := OtherException "RemoteProtocolError".

(** A paper to send. *)
Definition a_paper : Model.t :=
  Model.mk {[ "title" := JStr "Attention"; "id" := JStr "attention" ]}.

Lemma timeout_is_surfaced_witness :
  (HttpClient.request show (failing timed_out) with_token
     "get" "/papers/" None None None (Some 1)).1.1
  = Raise (HttpClientTimeout (Lib timed_out)).
Proof.
  exact (proj1 (timeout_is_surfaced show (failing timed_out) with_token
                  "get" "/papers/" None None None (Some 1) "timed out" eq_refl)).
Defined.

Lemma connection_error_is_unreachable_witness :
  (HttpClient.request show (failing refused) with_token
     "get" "/papers/" None None None None).1.1
  = Raise (HttpClientError (JStr "Server not reachable.") None None (Some (Lib refused))).
Proof.
  exact (proj1 (connection_error_is_unreachable show (failing refused) with_token
                  "get" "/papers/" None None None None "Connection refused" eq_refl)).
Defined.

Lemma other_exception_is_wrapped_witness :
  (HttpClient.request show (failing protocol_error) with_token
     "post" "/papers/" None None (Some a_paper) None).1.1
  = Raise (HttpClientError (JStr "Unknown error. Exception") None None
             (Some (Lib protocol_error))).
Proof.
  refine (proj1 (other_exception_is_wrapped show (failing protocol_error) with_token
                   "post" "/papers/" None None (Some a_paper) None protocol_error
                   eq_refl _ _)); discriminate.
Defined.

Lemma timeout_only_from_transport_witness :
  ∃ d c,
    Lib timed_out = Lib (TimeoutException d)
    ∧ (HttpClient.request show (failing timed_out) anonymous
         "delete" "/papers/1/" None None None None).2 = [c]
    ∧ failing timed_out c = Raise (TimeoutException d).
Proof.
  exact (timeout_only_from_transport show (failing timed_out) anonymous
           "delete" "/papers/1/" None None None None (Lib timed_out) eq_refl).
Defined.

Lemma data_ignored_without_body_witness :
  PyStr.lower "GET" ∈ ["get"; "delete"]
  ∧ HttpClient.request show (answering counted) anonymous
      "GET" "/papers/" None None (Some a_paper) None
    = HttpClient.request show (answering counted) anonymous
        "GET" "/papers/" None None None None.
Proof.
  assert (PyStr.lower "GET" ∈ ["get"; "delete"]) as H by apply list_elem_of_here.
  split; [exact H|].
  exact (data_ignored_without_body show (answering counted) anonymous
           "GET" "/papers/" None None (Some a_paper) None H).
Defined.

Lemma post_is_supported : supported "Post".
Proof.
  unfold supported. simpl. do 2 apply list_elem_of_further. apply list_elem_of_here.
Defined.

Lemma method_case_insensitive_witness :
  supported "Post"
  ∧ HttpClient.request show (answering counted) anonymous
      "Post" "/papers/" None None (Some a_paper) None
    = HttpClient.request show (answering counted) anonymous
        "post" "/papers/" None None (Some a_paper) None.
Proof.
  split; [exact post_is_supported|].
  exact (method_case_insensitive show (answering counted) anonymous
           "Post" "/papers/" None None (Some a_paper) None post_is_supported).
Defined.

Lemma outcome_depends_on_response_only_witness :
  (HttpClient.request show (answering teapot) with_token
     "post" "/papers/" None None (Some a_paper) (Some 3)).1.1
  = (HttpClient.request show (answering teapot) anonymous
       "get" "/repositories/" None None None None).1.1.
Proof.
  exact (outcome_depends_on_response_only show (answering teapot) anonymous
           "get" "/repositories/" None None None None
           (answering teapot) with_token "post" "/papers/" None None (Some a_paper) (Some 3)
           teapot eq_refl eq_refl).
Defined.

Lemma failure_always_raises_witness :
  ¬ is_2xx teapot
  ∧ ((∃ key, key ∈ rate_limit_details
        ∧ (HttpClient.request show (answering teapot) anonymous
             "get" "/papers/" None None None None).1.1 = Raise (Lib (KeyError key)))
     ∨ (∃ m, (HttpClient.request show (answering teapot) anonymous
                "get" "/papers/" None None None None).1.1
             = Raise (HttpClientError m (Some teapot) None None))).
Proof.
  assert (¬ is_2xx teapot) as H by (by apply status_outside_2xx).
  split; [exact H|].
  exact (failure_always_raises show (answering teapot) anonymous
           "get" "/papers/" None None None None teapot eq_refl H).
Defined.

Lemma returns_only_from_2xx_witness :
  (HttpClient.request show (answering counted) anonymous
     "get" "/papers/" None None None None).1.1 = Return (JObj {[ "count" := JNum 0 ]})
  ∧ ∃ r c,
      (HttpClient.request show (answering counted) anonymous
         "get" "/papers/" None None None None).2 = [c]
      ∧ answering counted c = Return r
      ∧ is_2xx r
      ∧ HttpClient.response
          (HttpClient.request show (answering counted) anonymous
             "get" "/papers/" None None None None).1.2 = Some r
      ∧ ((text r = "" ∧ JObj {[ "count" := JNum 0 ]} = JObj ∅)
         ∨ (text r ≠ "" ∧ json r = Return (JObj {[ "count" := JNum 0 ]}))).
Proof.
  split; [reflexivity|].
  exact (returns_only_from_2xx show (answering counted) anonymous
           "get" "/papers/" None None None None (JObj {[ "count" := JNum 0 ]}) eq_refl).
Defined.

Lemma no_explicit_status_witness :
  (HttpClient.request show (answering counted) anonymous
     "put" "/papers/" None None None None).1.1
  = Raise (HttpClientError (JStr "Unknown error. HttpClientError") None None
             (Some (HttpClientError (JStr "Unsupported method: put") None (Some 405) None)))
  ∧ (None : option Z) = None.
Proof.
  split; [reflexivity|].
  exact (no_explicit_status show (answering counted) anonymous
           "put" "/papers/" None None None None
           (JStr "Unknown error. HttpClientError") None None
           (Some (HttpClientError (JStr "Unsupported method: put") None (Some 405) None))
           eq_refl).
Defined.

(** Another client with the same token and method, elsewhere. *)
Definition mirror : HttpClient.t :=
  HttpClient.init "https://mirror.example/api/v1" "s3cr3t" AuthorizationMethod.token 30.

Lemma authorization_determines_scheme_and_token_witness :
  PyStr.strip (HttpClient.token with_token) ≠ ""
  ∧ PyStr.strip (HttpClient.token mirror) ≠ ""
  ∧ HttpClient.effective_headers with_token None !! "Authorization"
    = HttpClient.effective_headers mirror (Some {[ "Accept" := "*/*" ]}) !! "Authorization"
  ∧ HttpClient.authorization_method with_token = HttpClient.authorization_method mirror
  ∧ HttpClient.token with_token = HttpClient.token mirror.
Proof.
  assert (PyStr.strip (HttpClient.token with_token) ≠ "") as Ha by discriminate.
  assert (PyStr.strip (HttpClient.token mirror) ≠ "") as Hb by discriminate.
  assert (HttpClient.effective_headers with_token None !! "Authorization"
          = HttpClient.effective_headers mirror (Some {[ "Accept" := "*/*" ]})
              !! "Authorization") as Hc by (vm_compute; reflexivity).
  split; [exact Ha|]. split; [exact Hb|]. split; [exact Hc|].
  exact (authorization_determines_scheme_and_token with_token mirror
           None (Some {[ "Accept" := "*/*" ]}) Ha Hb Hc).
Defined.

Lemma classification_by_status_witness :
  HttpClient.check_rate_limit not_found = Return ()
  ∧ (HttpClient.request show (answering bad_field) anonymous
       "post" "/papers/" None None (Some a_paper) None).1.1
    = Raise (HttpClientError (JStr "bad field") (Some bad_field) None None)
  ∧ ∃ msg, HttpClient.ERRORS !! 404 = Some msg
      ∧ (HttpClient.request show (answering not_found) anonymous
           "get" "/papers/0/" None None None None).1.1
        = Raise (HttpClientError (JStr msg) (Some not_found) None None).
Proof.
  split; [reflexivity|]. split.
  - destruct (classification_by_status show (answering bad_field) anonymous
                "post" "/papers/" None None (Some a_paper) None bad_field eq_refl eq_refl)
      as (_ & H400 & _).
    exact (H400 eq_refl).
  - destruct (classification_by_status show (answering not_found) anonymous
                "get" "/papers/0/" None None None None not_found eq_refl eq_refl)
      as (Htable & _).
    apply Htable. simpl. do 2 apply list_elem_of_further. apply list_elem_of_here.
Defined.

(** Three calls in a row, the second with a method that is not served. *)
Definition three_calls : list Args :=
  [ mkArgs "get" "/papers/" None None None None;
    mkArgs "put" "/papers/1/" None None (Some a_paper) None;
    mkArgs "POST" "/papers/" None None (Some a_paper) (Some 3) ].

Lemma session_calls_are_independent_witness :
  (session show (answering counted) with_token three_calls).1.1
  = map (λ a, (request_with show (answering counted) with_token a).1.1) three_calls
  ∧ length (session show (answering counted) with_token three_calls).2 = 2%nat.
Proof.
  split.
  - exact (proj1 (session_calls_are_independent show (answering counted)
                    with_token three_calls)).
  - reflexivity.
Defined.
